(** * Browser-driven verification scripts: [verify_ipad.py] and [verify_player.py]

    Both scripts are straight-line Python programs whose whole behaviour is
    a sequence of calls into Playwright's synchronous API (plus [os.getcwd]
    and [print]), structured by [with], [try]/[except]/[finally].

    The embedding is shallow: a script is a computation in a small monad
    [Py] that threads the log of what has happened so far and may end in a
    raised exception.  What the outside world (browser, application under
    test, operating system) answers to each call is not decided by the
    scripts; it is a parameter of every run, the [world]. *)

From Stdlib Require Import String Ascii List ZArith Bool Lia.
From ExtLib Require Import Structures.Monad Structures.MonadExc.
Import ListNotations.
Import MonadNotation.

Local Open Scope string_scope.
Local Open Scope list_scope.
Local Open Scope Z_scope.
Local Open Scope monad_scope.

(* ===================================================================== *)
(** ** Python values, exceptions and results                              *)
(* ===================================================================== *)

(** Objects handed out by the library (the Playwright driver, a browser,
    a context, a page) are opaque to the scripts: they are only ever used
    as the receiver of a later method call.  A handle stands for one. *)
Definition handle := nat.

(** The exception classes that matter to the scripts.  Playwright's
    [TimeoutError] derives from its [Error], which derives from
    [Exception], as does [OSError]; [KeyboardInterrupt] derives from
    [BaseException] only. *)
Inductive exc_class : Type :=
| PlaywrightError
| PlaywrightTimeoutError
| OSError
| KeyboardInterrupt.

(** [isinstance(e, Exception)], the test of [except Exception as e]. *)
Definition isinstance_Exception (c : exc_class) : bool :=
  match c with
  | KeyboardInterrupt => false
  | PlaywrightError | PlaywrightTimeoutError | OSError => true
  end.

(** A raised exception: its class and [str(e)]. *)
Record exn : Type := Exn { exn_class : exc_class; exn_str : string }.

(** A statement or call either completes with a value or raises. *)
Inductive pyresult (A : Type) : Type :=
| Return (a : A)
| Raise (e : exn).
Arguments Return {A} a.
Arguments Raise {A} e.

(** The values the scripts receive back, as recorded in the log. *)
Inductive value : Type :=
| VNone
| VObj (h : handle)
| VStr (s : string).

(* ===================================================================== *)
(** ** The calls the scripts make                                         *)
(* ===================================================================== *)

(** [viewport={'width': w, 'height': h}] *)
Record viewport_size : Type := Viewport { width : Z; height : Z }.

(** The [state=] option of [wait_for_selector]. *)
Inductive selector_state : Type := attached | detached | visible | hidden.

(** Every call into Playwright or the operating system that occurs in the
    two scripts, with the arguments the script passes.  An optional keyword
    argument that a script may leave out is an [option]. *)
Inductive call : Type :=
| sync_playwright_enter                       (* with sync_playwright() as p: *)
| sync_playwright_exit                        (* leaving that with block *)
| chromium_launch (p : handle) (headless : bool)
| browser_new_context (browser : handle) (viewport : viewport_size)
                      (user_agent : string)
| browser_new_page (browser : handle)
| browser_close (browser : handle)
| context_new_page (context : handle)
| page_goto (page : handle) (url : string)
| page_wait_for_selector (page : handle) (selector : string)
                         (state : option selector_state) (timeout : option Z)
| page_wait_for_timeout (page : handle) (timeout : Z)
| page_click (page : handle) (selector : string)
| page_screenshot (page : handle) (path : string)
| os_getcwd.

(** What a call hands back to the script when it does not raise. *)
Definition ret_ty (c : call) : Type :=
  match c with
  | sync_playwright_enter | chromium_launch _ _ | browser_new_context _ _ _
  | browser_new_page _ | context_new_page _ => handle
  | os_getcwd => string
  | _ => unit
  end.

(** The same value as the log records it. *)
Definition log_value (c : call) : ret_ty c -> value :=
  match c as c0 return ret_ty c0 -> value with
  | sync_playwright_enter | chromium_launch _ _ | browser_new_context _ _ _
  | browser_new_page _ | context_new_page _ => VObj
  | os_getcwd => VStr
  | _ => fun _ => VNone
  end.

(** One entry of the log of a run: a call with how it ended, or a line
    written to the console by [print]. *)
Inductive event : Type :=
| Called (c : call) (r : pyresult value)
| Printed (line : string).

Definition trace := list event.

(** The invoking process and everything outside the script.  [respond]
    answers a call, given all that happened before it in the run. *)
Record world : Type := World {
  sys_argv   : list string;
  os_environ : list (string * string);
  respond    : trace -> forall c : call, pyresult (ret_ty c)
}.

(* ===================================================================== *)
(** ** The monad of scripts                                               *)
(* ===================================================================== *)

Definition Py (A : Type) : Type := world -> trace -> pyresult A * trace.

#[global] Instance Monad_Py : Monad Py := {|
  ret := fun A (a : A) (_ : world) (t : trace) => (Return a, t);
  bind := fun A B (m : Py A) (k : A -> Py B) (w : world) (t : trace) =>
    match m w t with
    | (Return a, t') => k a w t'
    | (Raise e, t') => (Raise e, t')
    end
|}.

#[global] Instance MonadExc_Py : MonadExc exn Py := {|
  raise := fun A (e : exn) (_ : world) (t : trace) => (Raise e, t);
  catch := fun A (m : Py A) (h : exn -> Py A) (w : world) (t : trace) =>
    match m w t with
    | (Return a, t') => (Return a, t')
    | (Raise e, t') => h e w t'
    end
|}.

(** A call: the world answers, the log grows by one entry. *)
Definition do_call (c : call) : Py (ret_ty c) :=
  fun w t =>
    match respond w t c with
    | Return v => (Return v, t ++ [Called c (Return (log_value c v))])
    | Raise e => (Raise e, t ++ [Called c (Raise e)])
    end.

(** [print(line)]: the line goes to the console; writing to the console
    is taken not to fail. *)
Definition print (line : string) : Py unit :=
  fun _ t => (Return tt, t ++ [Printed line]).

(** [try: body  except Exception as e: handler(e)] *)
Definition try_except_Exception {A} (body : Py A) (handler : exn -> Py A)
  : Py A :=
  catch body
    (fun e => if isinstance_Exception (exn_class e) then handler e
              else raise e).

(** [try: body  finally: cleanup].  The cleanup runs however the body
    ends; an exception raised by the cleanup replaces the body's result. *)
Definition try_finally {A} (body : Py A) (cleanup : Py unit) : Py A :=
  fun w t =>
    match body w t with
    | (r, t') =>
        match cleanup w t' with
        | (Return _, t'') => (r, t'')
        | (Raise e, t'') => (Raise e, t'')
        end
    end.

(** [with sync_playwright() as p: body].  Playwright's [__exit__] returns
    [None], so it never suppresses an exception of the body. *)
Definition with_sync_playwright {A} (body : handle -> Py A) : Py A :=
  p <- do_call sync_playwright_enter ;;
  try_finally (body p) (do_call sync_playwright_exit).

(** [s.startswith(pre)] *)
Fixpoint startswith (s pre : string) {struct pre} : bool :=
  match pre, s with
  | EmptyString, _ => true
  | String _ _, EmptyString => false
  | String a pre', String b s' => Ascii.eqb a b && startswith s' pre'
  end.

(** [s.startswith("/")] and [s.endswith("/")] *)
Definition startswith_sep (s : string) : bool := startswith s "/".

Fixpoint endswith_sep (s : string) : bool :=
  match s with
  | EmptyString => false
  | String c EmptyString => Ascii.eqb c "/"
  | String _ rest => endswith_sep rest
  end.

(** [os.path.join(a, b)] as CPython's [posixpath] computes it for two
    strings: [b] alone when [b] is absolute or [a] is empty, else [a] and
    [b] with exactly one separator between them. *)
Definition os_path_join (a b : string) : string :=
  if startswith_sep b || String.eqb a "" then b
  else if endswith_sep a then (a ++ b)%string
  else (a ++ "/" ++ b)%string.

(** Running a script from an empty log. *)
Definition run {A} (w : world) (m : Py A) : pyresult A * trace := m w [].
Definition outcome {A} (w : world) (m : Py A) : pyresult A := fst (run w m).
Definition trace_of {A} (w : world) (m : Py A) : trace := snd (run w m).

(** The status the interpreter exits with once the script's top level has
    ended: zero when it ran to its end, non-zero when an exception reached
    the top ([130] is what an unhandled [KeyboardInterrupt] gives). *)
Definition exit_status (r : pyresult unit) : Z :=
  match r with
  | Return _ => 0
  | Raise e =>
      match exn_class e with
      | KeyboardInterrupt => 130
      | _ => 1
      end
  end.

(* ===================================================================== *)
(** ** verification/verify_ipad.py                                        *)
(* ===================================================================== *)

Module verify_ipad.

Definition verify_app : Py unit :=
  with_sync_playwright (fun p =>
    browser <- do_call (chromium_launch p true) ;;
    (* Create a context with iPad dimensions *)
    context <- do_call (browser_new_context browser
      {| width := 834; height := 1194 |}
      "Mozilla/5.0 (iPad; CPU OS 11_0 like Mac OS X) AppleWebKit/604.1.34 (KHTML, like Gecko) Version/11.0 Mobile/15A5341f Safari/604.1") ;;
    page <- do_call (context_new_page context) ;;
    try_finally
      (try_except_Exception
         (do_call (page_goto page "http://localhost:3000") ;;
          do_call (page_wait_for_selector page "text=Recent Heat"
                                          None (Some 10000)) ;;
          do_call (page_screenshot page "verification/home_ipad.png") ;;
          print "Home screenshot taken" ;;
          do_call (page_click page "text=Library") ;;
          do_call (page_wait_for_timeout page 500) ;;
          do_call (page_screenshot page "verification/library_ipad.png") ;;
          print "Library screenshot taken" ;;
          do_call (page_click page "text=Search") ;;
          do_call (page_wait_for_timeout page 500) ;;
          do_call (page_screenshot page "verification/search_ipad.png") ;;
          print "Search screenshot taken")
         (fun e => print ("Error: " ++ exn_str e)%string))
      (do_call (browser_close browser))).

(** [if __name__ == "__main__": verify_app()] *)
Definition main : Py unit := verify_app.

End verify_ipad.

(* ===================================================================== *)
(** ** verification/verify_player.py                                      *)
(* ===================================================================== *)

Module verify_player.

Definition verify_audio_player (page : handle) : Py unit :=
  do_call (page_goto page "http://localhost:3000") ;;
  do_call (page_wait_for_selector page "h1" (Some visible) None) ;;
  cwd <- do_call os_getcwd ;;
  let path := os_path_join cwd "verification/home.png" in
  do_call (page_screenshot page path) ;;
  print ("Home screenshot taken at " ++ path)%string.

(** The body under [if __name__ == "__main__":]. *)
Definition main : Py unit :=
  with_sync_playwright (fun p =>
    browser <- do_call (chromium_launch p true) ;;
    page <- do_call (browser_new_page browser) ;;
    try_finally (verify_audio_player page)
                (do_call (browser_close browser))).

End verify_player.

(* ===================================================================== *)
(** ** What a run shows                                                   *)
(* ===================================================================== *)

(** The files written: a screenshot file exists once [page.screenshot]
    has returned; a call that raised wrote nothing. *)
Fixpoint screenshots_written (t : trace) : list string :=
  match t with
  | [] => []
  | Called (page_screenshot _ path) (Return _) :: rest =>
      path :: screenshots_written rest
  | _ :: rest => screenshots_written rest
  end.

(** The paths handed to [page.screenshot], whether or not it returned. *)
Fixpoint screenshots_requested (t : trace) : list string :=
  match t with
  | [] => []
  | Called (page_screenshot _ path) _ :: rest =>
      path :: screenshots_requested rest
  | _ :: rest => screenshots_requested rest
  end.

(** The lines on the console. *)
Fixpoint console (t : trace) : list string :=
  match t with
  | [] => []
  | Printed line :: rest => line :: console rest
  | _ :: rest => console rest
  end.

(** The browsers [chromium.launch] handed out. *)
Fixpoint launched (t : trace) : list handle :=
  match t with
  | [] => []
  | Called (chromium_launch _ _) (Return (VObj b)) :: rest =>
      b :: launched rest
  | _ :: rest => launched rest
  end.

(** The browsers on which [close] was called. *)
Fixpoint closed (t : trace) : list handle :=
  match t with
  | [] => []
  | Called (browser_close b) _ :: rest => b :: closed rest
  | _ :: rest => closed rest
  end.

Definition raised_in (t : trace) (c : call) (e : exn) : Prop :=
  In (Called c (Raise e)) t.

Definition returned_in (t : trace) (c : call) (v : value) : Prop :=
  In (Called c (Return v)) t.

(** The three phases a call belongs to. *)
Definition is_setup_call (c : call) : bool :=
  match c with
  | sync_playwright_enter | chromium_launch _ _ | browser_new_context _ _ _
  | browser_new_page _ | context_new_page _ => true
  | _ => false
  end.

Definition is_page_call (c : call) : bool :=
  match c with
  | page_goto _ _ | page_wait_for_selector _ _ _ _
  | page_wait_for_timeout _ _ | page_click _ _ | page_screenshot _ _ => true
  | _ => false
  end.

Definition is_release_call (c : call) : bool :=
  match c with
  | browser_close _ | sync_playwright_exit => true
  | _ => false
  end.


Definition is_page_event (ev : event) : bool :=
  match ev with
  | Called c _ => is_page_call c
  | Printed _ => false
  end.

(** Whether closing the browser or leaving the Playwright scope raised. *)
Definition release_raised (t : trace) : bool :=
  existsb (fun ev => match ev with
                     | Called c (Raise _) => is_release_call c
                     | _ => false
                     end) t.

(** The literals of [verify_ipad.py], named. *)
Definition ipad_user_agent : string :=
  "Mozilla/5.0 (iPad; CPU OS 11_0 like Mac OS X) AppleWebKit/604.1.34 (KHTML, like Gecko) Version/11.0 Mobile/15A5341f Safari/604.1".

Definition app_url : string := "http://localhost:3000".

(** The log of a session set up as [verify_ipad.py] does: driver [p],
    browser [b], context [c], page [pg]. *)
Definition ipad_setup (p b c pg : handle) : trace :=
  [ Called sync_playwright_enter (Return (VObj p));
    Called (chromium_launch p true) (Return (VObj b));
    Called (browser_new_context b {| width := 834; height := 1194 |}
                                ipad_user_agent) (Return (VObj c));
    Called (context_new_page c) (Return (VObj pg)) ].

(** The log of the home view loading and being captured. *)
Definition ipad_home (pg : handle) : trace :=
  [ Called (page_goto pg app_url) (Return VNone);
    Called (page_wait_for_selector pg "text=Recent Heat" None (Some 10000))
           (Return VNone);
    Called (page_screenshot pg "verification/home_ipad.png") (Return VNone);
    Printed "Home screenshot taken" ].

(** A straight-line block of statements, as a script. *)
Inductive stmt : Type :=
| Do (c : call)
| Say (line : string).

(** [follows stop script t]: the log [t] is that of running [script] in
    order, every statement attempted only after all earlier ones have
    returned, and nothing of the script attempted after a call raised;
    [stop] describes what the log holds from there on. *)
Inductive follows (stop : trace -> Prop) : list stmt -> trace -> Prop :=
| follows_end t :
    stop t -> follows stop [] t
| follows_say line script t :
    follows stop script t ->
    follows stop (Say line :: script) (Printed line :: t)
| follows_returned c script t :
    follows stop script t ->
    follows stop (Do c :: script) (Called c (Return VNone) :: t)
| follows_raised c e script t :
    stop t ->
    follows stop (Do c :: script) (Called c (Raise e) :: t).

(** The two tab visits of [verify_ipad.py]. *)
Definition ipad_tabs (pg : handle) : list stmt :=
  [ Do (page_click pg "text=Library");
    Do (page_wait_for_timeout pg 500);
    Do (page_screenshot pg "verification/library_ipad.png");
    Say "Library screenshot taken";
    Do (page_click pg "text=Search");
    Do (page_wait_for_timeout pg 500);
    Do (page_screenshot pg "verification/search_ipad.png");
    Say "Search screenshot taken" ].

(** The script's file names, in the order it asks for them. *)
Fixpoint script_paths (script : list stmt) : list string :=
  match script with
  | [] => []
  | Do (page_screenshot _ path) :: rest => path :: script_paths rest
  | _ :: rest => script_paths rest
  end.

(** What may follow the guarded block: the handler's message, closing the
    browser, leaving the Playwright scope.  No page operation and no
    progress message is among them. *)
Definition is_wind_down (ev : event) : bool :=
  match ev with
  | Called c _ => is_release_call c
  | Printed line => startswith line "Error: "
  end.

Definition winding_down (t : trace) : Prop :=
  forallb is_wind_down t = true.

(** The entries [seg] stand in the log [t] one right after the other. *)
Definition consecutive_in (seg t : trace) : Prop :=
  exists pre post, t = pre ++ seg ++ post.

(** The calls [verify_audio_player] makes. *)
Definition in_verify_audio_player (c : call) : bool :=
  match c with
  | os_getcwd => true
  | _ => is_page_call c
  end.

(* ===================================================================== *)
(** ** Worlds to run the scripts in                                       *)
(* ===================================================================== *)

(** Everything works: the driver, browser, context and page are objects
    1 to 4, and the process runs in directory [cwd]. *)
Definition cooperative (cwd : string)
  : trace -> forall c : call, pyresult (ret_ty c) :=
  fun _ c =>
    match c as c0 return pyresult (ret_ty c0) with
    | sync_playwright_enter => Return 1%nat
    | chromium_launch _ _ => Return 2%nat
    | browser_new_context _ _ _ => Return 3%nat
    | browser_new_page _ => Return 4%nat
    | context_new_page _ => Return 4%nat
    | os_getcwd => Return cwd
    | _ => Return tt
    end.

(** As [base], except that the calls selected by [sel] raise [e]. *)
Definition failing (sel : call -> bool) (e : exn)
  (base : trace -> forall c : call, pyresult (ret_ty c))
  : trace -> forall c : call, pyresult (ret_ty c) :=
  fun t c => if sel c then Raise e else base t c.

Definition clicks (selector : string) (c : call) : bool :=
  match c with
  | page_click _ s => String.eqb s selector
  | _ => false
  end.

Definition navigates (c : call) : bool :=
  match c with page_goto _ _ => true | _ => false end.

Definition waits_for_selector (c : call) : bool :=
  match c with page_wait_for_selector _ _ _ _ => true | _ => false end.

Definition opens_context (c : call) : bool :=
  match c with browser_new_context _ _ _ => true | _ => false end.


Definition timeout_error (ms : string) : exn :=
  Exn PlaywrightTimeoutError ("Timeout " ++ ms ++ "ms exceeded.")%string.

Definition connection_refused : exn :=
  Exn PlaywrightError "net::ERR_CONNECTION_REFUSED at http://localhost:3000/".

Definition target_closed : exn :=
  Exn PlaywrightError "Target page, context or browser has been closed".

(** The application is up and renders everything the scripts look for. *)
Definition app_up : world :=
  World [] [] (cooperative "/home/dev/music").

(** Nothing listens on port 3000. *)
Definition app_down : world :=
  World [] [] (failing navigates connection_refused
                 (cooperative "/home/dev/music")).


(** The home view renders but has no Library tab. *)
Definition app_without_library : world :=
  World [] [] (failing (clicks "text=Library") (timeout_error "30000")
                 (cooperative "/home/dev/music")).

(** The browser starts but refuses to open a context or a page. *)
Definition browser_without_context : world :=
  World [] [] (failing opens_context target_closed
                 (cooperative "/home/dev/music")).


(** The same cooperative browser and application, with the script started
    from another directory. *)
Definition app_up_elsewhere : world :=
  World [] [] (cooperative "/srv/app").

(** The same again, started in the same directory as [app_up] but with
    arguments and environment variables set. *)
Definition app_up_with_flags : world :=
  World ["verify_player.py"; "--out"; "/tmp/shots"]
        [("VERIFY_URL", "http://localhost:8080"); ("OUT", "/tmp/shots")]
        (cooperative "/home/dev/music").

(* ===================================================================== *)
(** ** More of what a run shows                                           *)
(* ===================================================================== *)

(** The exception raised last in the log, if any was. *)
Fixpoint last_raised (t : trace) : option exn :=
  match t with
  | [] => None
  | Called _ (Raise e) :: rest =>
      match last_raised rest with
      | Some e' => Some e'
      | None => Some e
      end
  | _ :: rest => last_raised rest
  end.

(** What the log holds after the first call that raised; nothing when no
    call raised. *)
Fixpoint after_first_raise (t : trace) : trace :=
  match t with
  | [] => []
  | Called _ (Raise _) :: rest => rest
  | _ :: rest => after_first_raise rest
  end.

(** The page a call operates on. *)
Definition page_of (c : call) : option handle :=
  match c with
  | page_goto pg _ | page_wait_for_selector pg _ _ _
  | page_wait_for_timeout pg _ | page_click pg _ | page_screenshot pg _ =>
      Some pg
  | _ => None
  end.

(** The pages operated on, the pages opened, the browsers asked for a
    context or a page, the contexts created and the contexts asked for a
    page. *)
Fixpoint pages_used (t : trace) : list handle :=
  match t with
  | [] => []
  | Called c _ :: rest =>
      match page_of c with
      | Some pg => pg :: pages_used rest
      | None => pages_used rest
      end
  | _ :: rest => pages_used rest
  end.

Fixpoint pages_opened (t : trace) : list handle :=
  match t with
  | [] => []
  | Called (browser_new_page _) (Return (VObj pg)) :: rest
  | Called (context_new_page _) (Return (VObj pg)) :: rest =>
      pg :: pages_opened rest
  | _ :: rest => pages_opened rest
  end.

(** The progress messages of [verify_ipad.py] and the files they report,
    in the script's order. *)
Definition ipad_paths : list string :=
  [ "verification/home_ipad.png"; "verification/library_ipad.png";
    "verification/search_ipad.png" ].

Definition ipad_messages : list string :=
  [ "Home screenshot taken"; "Library screenshot taken";
    "Search screenshot taken" ].

(** The scope of [with sync_playwright()] being entered or left. *)
Definition is_scope_event (ev : event) : bool :=
  match ev with
  | Called sync_playwright_enter _ | Called sync_playwright_exit _ => true
  | _ => false
  end.

(** The wait is cut short by Ctrl-C. *)
Definition interrupt : exn := Exn KeyboardInterrupt "".

Definition app_interrupted : world :=
  World [] [] (failing waits_for_selector interrupt
                 (cooperative "/home/dev/music")).

(** Chromium is not installed. *)
Definition launches (c : call) : bool :=
  match c with chromium_launch _ _ => true | _ => false end.

Definition executable_missing : exn :=
  Exn PlaywrightError "Executable doesn't exist".

Definition browser_missing : world :=
  World [] [] (failing launches executable_missing
                 (cooperative "/home/dev/music")).

(** Everything works until the browser is to be closed. *)
Definition closes (c : call) : bool :=
  match c with browser_close _ => true | _ => false end.

Definition close_fails : world :=
  World [] [] (failing closes target_closed (cooperative "/home/dev/music")).

(** A run brackets everything between entering and leaving the Playwright
    scope: either entering raised and nothing else happened, or the log
    starts with the scope entered, ends with the scope left, and the
    scope is neither entered nor left in between. *)
Definition scope_bracketed (r : pyresult unit * trace) : Prop :=
  (exists e, r = (Raise e, [Called sync_playwright_enter (Raise e)]))
  \/ (exists p body x,
        snd r = Called sync_playwright_enter (Return (VObj p))
                :: body ++ [Called sync_playwright_exit x]
        /\ forallb (fun ev => negb (is_scope_event ev)) body = true).

(* ===================================================================== *)
(** ** Stepping through a run                                             *)
(* ===================================================================== *)

Arguments os_path_join : simpl never.

Lemma do_call_cases (c : call) (w : world) (t : trace) :
  (exists v, do_call c w t
             = (Return v, t ++ [Called c (Return (log_value c v))]))
  \/ (exists e, do_call c w t = (Raise e, t ++ [Called c (Raise e)])).
Proof.
  unfold do_call.
  destruct (respond w t c) as [v|e]; [left; exists v | right; exists e];
    reflexivity.
Qed.

(** One step of a run in the goal: the next call either returns or raises;
    a raised exception is or is not an [Exception]. *)
Ltac step_call :=
  match goal with
  | |- context [do_call ?c ?w ?t] =>
      let E := fresh "E" in
      destruct (do_call_cases c w t) as [[? E]|[? E]];
      rewrite E; clear E; cbn
  | |- context [if isinstance_Exception (exn_class ?e) then _ else _] =>
      destruct (isinstance_Exception (exn_class e)) eqn:?; cbn
  end.

Ltac unfold_scripts :=
  unfold outcome, trace_of, run,
    verify_ipad.main, verify_ipad.verify_app,
    verify_player.main, verify_player.verify_audio_player,
    with_sync_playwright, try_finally, try_except_Exception.

(** All the ways a run can go. *)
Ltac explore :=
  unfold_scripts; fold ipad_user_agent; cbn; repeat step_call.

(** Membership of an event in an explicit log, as a hypothesis [H]: one
    goal for each entry of the log it can be. *)
Ltac which_event H :=
  cbn in H;
  repeat (destruct H as [H|H];
          [ first [ discriminate H | inversion H; subst; clear H | idtac ] | ]);
  try contradiction.

Ltac in_log := cbv; repeat (first [ left; reflexivity | right ]).


(** [consecutive_in seg t] for explicit [seg] and [t]. *)
Ltac segment_at n :=
  match goal with
  | |- consecutive_in ?seg ?t =>
      exists (firstn n t), (skipn (n + length seg) t); reflexivity
  end.

Ltac segment_from fuel n :=
  lazymatch fuel with
  | O => fail
  | S ?fuel' => first [ segment_at n | segment_from fuel' (S n) ]
  end.

Ltac find_segment := segment_from 24%nat 0%nat.

(** A log that follows a script, entry by entry. *)
Ltac follow_script :=
  repeat first [ apply follows_say | apply follows_returned
               | apply follows_raised | apply follows_end ];
  reflexivity.

(** Two worlds that answer alike, stepped together. *)
Lemma do_call_agree (w1 w2 : world) (c : call) (t : trace) :
  respond w1 t c = respond w2 t c -> do_call c w2 t = do_call c w1 t.
Proof. intros H. unfold do_call. rewrite H. reflexivity. Qed.

Ltac align_call w1 w2 tac :=
  match goal with
  | |- context [do_call ?c w2 ?t] =>
      rewrite (do_call_agree w1 w2 c t) by tac
  end.

Ltac explore_both w1 w2 tac :=
  unfold_scripts; fold ipad_user_agent; cbn;
  repeat first [ align_call w1 w2 tac | step_call ].

(* ===================================================================== *)
(** ** Concrete runs                                                      *)
(* ===================================================================== *)

Example ipad_run_app_up :
  run app_up verify_ipad.main =
    (Return tt,
     ipad_setup 1%nat 2%nat 3%nat 4%nat ++ ipad_home 4%nat ++
     [ Called (page_click 4%nat "text=Library") (Return VNone);
       Called (page_wait_for_timeout 4%nat 500) (Return VNone);
       Called (page_screenshot 4%nat "verification/library_ipad.png")
              (Return VNone);
       Printed "Library screenshot taken";
       Called (page_click 4%nat "text=Search") (Return VNone);
       Called (page_wait_for_timeout 4%nat 500) (Return VNone);
       Called (page_screenshot 4%nat "verification/search_ipad.png")
              (Return VNone);
       Printed "Search screenshot taken";
       Called (browser_close 2%nat) (Return VNone);
       Called sync_playwright_exit (Return VNone) ]).
Proof. reflexivity. Qed.

Example ipad_run_app_without_library :
  run app_without_library verify_ipad.main =
    (Return tt,
     ipad_setup 1%nat 2%nat 3%nat 4%nat ++ ipad_home 4%nat ++
     [ Called (page_click 4%nat "text=Library")
              (Raise (timeout_error "30000"));
       Printed "Error: Timeout 30000ms exceeded.";
       Called (browser_close 2%nat) (Return VNone);
       Called sync_playwright_exit (Return VNone) ]).
Proof. reflexivity. Qed.

Example player_run_app_up :
  run app_up verify_player.main =
    (Return tt,
     [ Called sync_playwright_enter (Return (VObj 1%nat));
       Called (chromium_launch 1%nat true) (Return (VObj 2%nat));
       Called (browser_new_page 2%nat) (Return (VObj 4%nat));
       Called (page_goto 4%nat "http://localhost:3000") (Return VNone);
       Called (page_wait_for_selector 4%nat "h1" (Some visible) None)
              (Return VNone);
       Called os_getcwd (Return (VStr "/home/dev/music"));
       Called (page_screenshot 4%nat "/home/dev/music/verification/home.png")
              (Return VNone);
       Printed "Home screenshot taken at /home/dev/music/verification/home.png";
       Called (browser_close 2%nat) (Return VNone);
       Called sync_playwright_exit (Return VNone) ]).
Proof. reflexivity. Qed.

Example player_run_app_down :
  run app_down verify_player.main =
    (Raise connection_refused,
     [ Called sync_playwright_enter (Return (VObj 1%nat));
       Called (chromium_launch 1%nat true) (Return (VObj 2%nat));
       Called (browser_new_page 2%nat) (Return (VObj 4%nat));
       Called (page_goto 4%nat "http://localhost:3000")
              (Raise connection_refused);
       Called (browser_close 2%nat) (Return VNone);
       Called sync_playwright_exit (Return VNone) ]).
Proof. reflexivity. Qed.

(* ===================================================================== *)
(** ** Auxiliary facts                                                    *)
(* ===================================================================== *)

(** An exception that reaches the top level gives a non-zero status. *)
Lemma exit_status_raise (e : exn) : exit_status (Raise e) <> 0.
Proof. unfold exit_status. destruct (exn_class e); discriminate. Qed.

(** Joining a directory that does not end in a separator with the
    relative file name puts one separator between them. *)
Lemma os_path_join_relative (cwd : string) :
  cwd <> "" -> endswith_sep cwd = false ->
  os_path_join cwd "verification/home.png"
  = (cwd ++ "/verification/home.png")%string.
Proof.
  intros Hne Hsep. unfold os_path_join.
  destruct cwd as [|a rest]; [ contradiction | ].
  replace (startswith_sep "verification/home.png"
           || String.eqb (String a rest) "") with false by reflexivity.
  rewrite Hsep. reflexivity.
Qed.

(** The root directory already ends in the separator. *)
Lemma os_path_join_root :
  os_path_join "/" "verification/home.png" = "/verification/home.png".
Proof. reflexivity. Qed.

(** Joined to an absolute directory, the path is absolute. *)
Lemma os_path_join_absolute (cwd : string) :
  startswith_sep cwd = true ->
  startswith_sep (os_path_join cwd "verification/home.png") = true.
Proof.
  intros Habs. unfold os_path_join.
  destruct cwd as [|a rest]; [ discriminate | ].
  replace (startswith_sep "verification/home.png"
           || String.eqb (String a rest) "") with false by reflexivity.
  destruct (endswith_sep (String a rest)); exact Habs.
Qed.

(** Winding down writes no file. *)
Lemma winding_down_writes_nothing (t : trace) :
  winding_down t -> screenshots_written t = [].
Proof.
  unfold winding_down. induction t as [|ev t IH]; [ reflexivity | ].
  cbn [forallb]. intros H. apply andb_prop in H. destruct H as [Hev Ht].
  destruct ev as [c r|line]; cbn in *.
  - destruct c; try discriminate Hev; apply IH; exact Ht.
  - apply IH; exact Ht.
Qed.

(** A log that follows a script holds the script's files in the script's
    order, up to where the script stopped. *)
Lemma follows_written (script : list stmt) (t : trace) :
  follows winding_down script t ->
  exists k, screenshots_written t = firstn k (script_paths script).
Proof.
  induction 1 as [t Hstop | line script t _ [k IH] | c script t _ [k IH]
                 | c e script t Hstop].
  - exists 0%nat. apply winding_down_writes_nothing, Hstop.
  - exists k. exact IH.
  - destruct c; try (exists k; exact IH).
    exists (S k). cbn. rewrite IH. reflexivity.
  - exists 0%nat. cbn.
    rewrite (winding_down_writes_nothing t Hstop).
    destruct c; reflexivity.
Qed.

(* ===================================================================== *)
(** ** The iPad runner                                                    *)
(* ===================================================================== *)

(** C1.  In every run of the iPad runner in which the wait for a selector
    returns (the application was reachable and showed the text in time),
    the log starts with: the Playwright scope entered, Chromium launched
    headless, a context created with viewport 834 x 1194 and the iPad
    user agent, a page opened in it, that page sent to
    http://localhost:3000, a wait for "text=Recent Heat" with a timeout of
    10000 ms, and then a screenshot requested at
    verification/home_ipad.png; the file is written unless that very call
    raises. *)
Theorem ipad_home_screenshot (w : world) (pg : handle)
    (sel : string) (st : option selector_state) (tmo : option Z) :
  returned_in (trace_of w verify_ipad.main)
              (page_wait_for_selector pg sel st tmo) VNone ->
  exists p b c r rest,
    trace_of w verify_ipad.main =
      [ Called sync_playwright_enter (Return (VObj p));
        Called (chromium_launch p true) (Return (VObj b));
        Called (browser_new_context b {| width := 834; height := 1194 |}
                                    ipad_user_agent) (Return (VObj c));
        Called (context_new_page c) (Return (VObj pg));
        Called (page_goto pg "http://localhost:3000") (Return VNone);
        Called (page_wait_for_selector pg "text=Recent Heat" None
                                       (Some 10000)) (Return VNone);
        Called (page_screenshot pg "verification/home_ipad.png") r ] ++ rest
    /\ (r = Return VNone ->
        In "verification/home_ipad.png"
           (screenshots_written (trace_of w verify_ipad.main))).
Proof.
  unfold returned_in. explore; intros H; which_event H.
  all: do 5 eexists; split; [ reflexivity | ].
  all: intros R; first [ discriminate R | cbn; auto ].
Qed.

Lemma ipad_home_screenshot_witness :
  exists p b c r rest,
    trace_of app_up verify_ipad.main =
      [ Called sync_playwright_enter (Return (VObj p));
        Called (chromium_launch p true) (Return (VObj b));
        Called (browser_new_context b {| width := 834; height := 1194 |}
                                    ipad_user_agent) (Return (VObj c));
        Called (context_new_page c) (Return (VObj 4%nat));
        Called (page_goto 4%nat "http://localhost:3000") (Return VNone);
        Called (page_wait_for_selector 4%nat "text=Recent Heat" None
                                       (Some 10000)) (Return VNone);
        Called (page_screenshot 4%nat "verification/home_ipad.png") r ]
      ++ rest
    /\ (r = Return VNone ->
        In "verification/home_ipad.png"
           (screenshots_written (trace_of app_up verify_ipad.main))).
Proof.
  apply (ipad_home_screenshot app_up 4%nat "text=Recent Heat" None
                              (Some 10000)).
  in_log.
Defined.

(** C2.  In every run in which the home screenshot has been written, the
    log continues, right after "Home screenshot taken", by following the
    script: click "text=Library", wait 500 ms, screenshot
    verification/library_ipad.png, message, click "text=Search", wait
    500 ms, screenshot verification/search_ipad.png, message; each of
    these is attempted only once all before it have returned, and after
    the first that raises nothing but winding down is left.  So a tab's
    screenshot is written only right after the click on that tab and the
    500 ms wait have returned, the Search one only after the Library
    one. *)
Theorem ipad_tab_screenshots (w : world) (pg : handle) :
  returned_in (trace_of w verify_ipad.main)
              (page_screenshot pg "verification/home_ipad.png") VNone ->
  (exists p b c rest,
     trace_of w verify_ipad.main = ipad_setup p b c pg ++ ipad_home pg ++ rest
     /\ follows winding_down (ipad_tabs pg) rest)
  /\ (In "verification/library_ipad.png"
         (screenshots_written (trace_of w verify_ipad.main)) ->
      consecutive_in
        [ Printed "Home screenshot taken";
          Called (page_click pg "text=Library") (Return VNone);
          Called (page_wait_for_timeout pg 500) (Return VNone);
          Called (page_screenshot pg "verification/library_ipad.png")
                 (Return VNone) ]
        (trace_of w verify_ipad.main))
  /\ (In "verification/search_ipad.png"
         (screenshots_written (trace_of w verify_ipad.main)) ->
      consecutive_in
        [ Called (page_screenshot pg "verification/library_ipad.png")
                 (Return VNone);
          Printed "Library screenshot taken";
          Called (page_click pg "text=Search") (Return VNone);
          Called (page_wait_for_timeout pg 500) (Return VNone);
          Called (page_screenshot pg "verification/search_ipad.png")
                 (Return VNone) ]
        (trace_of w verify_ipad.main)).
Proof.
  unfold returned_in. explore; intros H; which_event H.
  all: split; [ do 4 eexists; split; [ reflexivity | follow_script ] | ].
  all: split; intros Hin; cbn in Hin;
    repeat (destruct Hin as [Hin|Hin]; [ try discriminate Hin | ]);
    try contradiction.
  all: find_segment.
Qed.

Lemma ipad_tab_screenshots_witness :
  (exists p b c rest,
     trace_of app_up verify_ipad.main
     = ipad_setup p b c 4%nat ++ ipad_home 4%nat ++ rest
     /\ follows winding_down (ipad_tabs 4%nat) rest)
  /\ (In "verification/library_ipad.png"
         (screenshots_written (trace_of app_up verify_ipad.main)) ->
      consecutive_in
        [ Printed "Home screenshot taken";
          Called (page_click 4%nat "text=Library") (Return VNone);
          Called (page_wait_for_timeout 4%nat 500) (Return VNone);
          Called (page_screenshot 4%nat "verification/library_ipad.png")
                 (Return VNone) ]
        (trace_of app_up verify_ipad.main))
  /\ (In "verification/search_ipad.png"
         (screenshots_written (trace_of app_up verify_ipad.main)) ->
      consecutive_in
        [ Called (page_screenshot 4%nat "verification/library_ipad.png")
                 (Return VNone);
          Printed "Library screenshot taken";
          Called (page_click 4%nat "text=Search") (Return VNone);
          Called (page_wait_for_timeout 4%nat 500) (Return VNone);
          Called (page_screenshot 4%nat "verification/search_ipad.png")
                 (Return VNone) ]
        (trace_of app_up verify_ipad.main)).
Proof.
  apply (ipad_tab_screenshots app_up 4%nat).
  in_log.
Defined.





(** C9.  In every run of the iPad runner in which some call raises [e]:
    if the call belongs to the setup (entering the Playwright scope,
    launching the browser, creating the context, opening the page), the
    handler does not run (nothing is printed, no page operation happens)
    and [verify_app] ends by raising, [e] itself unless leaving the scope
    raises in turn; and if [verify_app] nevertheless returns, then the
    call was one on the page inside the guarded block, [e] is an
    [Exception], and "Error: <message>" was printed right after it. *)
Theorem ipad_setup_errors_propagate (w : world) (c : call) (e : exn) :
  raised_in (trace_of w verify_ipad.main) c e ->
  (is_setup_call c = true ->
   (exists e',
      outcome w verify_ipad.main = Raise e'
      /\ (release_raised (trace_of w verify_ipad.main) = false -> e' = e))
   /\ exit_status (outcome w verify_ipad.main) <> 0
   /\ console (trace_of w verify_ipad.main) = []
   /\ forallb (fun ev => negb (is_page_event ev))
              (trace_of w verify_ipad.main) = true)
  /\ (outcome w verify_ipad.main = Return tt ->
      is_page_call c = true
      /\ isinstance_Exception (exn_class e) = true
      /\ consecutive_in [ Called c (Raise e);
                          Printed ("Error: " ++ exn_str e) ]
                        (trace_of w verify_ipad.main)).
Proof.
  unfold raised_in. explore; intros H; which_event H.
  all: split; [ intros Hc; try discriminate Hc
              | intros Ho; try discriminate Ho ].
  all: try solve [ split; [ reflexivity
                          | split; [ assumption | find_segment ] ] ].
  all: split; [ eexists; split; [ reflexivity | cbn; congruence ] | ].
  all: split; [ apply exit_status_raise | split; reflexivity ].
Qed.

Lemma ipad_setup_errors_propagate_witness :
  (is_setup_call (browser_new_context 2%nat
                    {| width := 834; height := 1194 |} ipad_user_agent) = true ->
   (exists e',
      outcome browser_without_context verify_ipad.main = Raise e'
      /\ (release_raised (trace_of browser_without_context verify_ipad.main)
          = false -> e' = target_closed))
   /\ exit_status (outcome browser_without_context verify_ipad.main) <> 0
   /\ console (trace_of browser_without_context verify_ipad.main) = []
   /\ forallb (fun ev => negb (is_page_event ev))
              (trace_of browser_without_context verify_ipad.main) = true)
  /\ (outcome browser_without_context verify_ipad.main = Return tt ->
      is_page_call (browser_new_context 2%nat
                      {| width := 834; height := 1194 |} ipad_user_agent) = true
      /\ isinstance_Exception (exn_class target_closed) = true
      /\ consecutive_in
           [ Called (browser_new_context 2%nat
                       {| width := 834; height := 1194 |} ipad_user_agent)
                    (Raise target_closed);
             Printed ("Error: " ++ exn_str target_closed) ]
           (trace_of browser_without_context verify_ipad.main)).
Proof.
  apply (ipad_setup_errors_propagate browser_without_context
           (browser_new_context 2%nat {| width := 834; height := 1194 |}
                                ipad_user_agent)
           target_closed).
  in_log.
Defined.

(** C10.  In every run of the iPad runner the files written are, in the
    order written, an initial part of home_ipad.png, library_ipad.png,
    search_ipad.png: the Library screenshot is written only after the home
    one, the Search screenshot only after the Library one. *)
Theorem ipad_screenshots_form_a_prefix (w : world) :
  (exists k,
     screenshots_written (trace_of w verify_ipad.main)
     = firstn k [ "verification/home_ipad.png";
                  "verification/library_ipad.png";
                  "verification/search_ipad.png" ])
  /\ (In "verification/library_ipad.png"
         (screenshots_written (trace_of w verify_ipad.main)) ->
      exists rest,
        screenshots_written (trace_of w verify_ipad.main)
        = "verification/home_ipad.png" :: "verification/library_ipad.png"
          :: rest)
  /\ (In "verification/search_ipad.png"
         (screenshots_written (trace_of w verify_ipad.main)) ->
      screenshots_written (trace_of w verify_ipad.main)
      = [ "verification/home_ipad.png"; "verification/library_ipad.png";
          "verification/search_ipad.png" ]).
Proof.
  explore.
  all: split;
    [ first [ exists 0%nat; reflexivity | exists 1%nat; reflexivity
            | exists 2%nat; reflexivity | exists 3%nat; reflexivity ] | ].
  all: split; intros Hin; cbn in Hin;
    repeat (destruct Hin as [Hin|Hin]; [ try discriminate Hin | ]);
    try contradiction.
  all: first [ reflexivity | eexists; reflexivity ].
Qed.

(** An interrupt is not an [Exception]: the handler lets it through, the
    browser is still closed, and the run ends with it. *)
Example ipad_interrupt_propagates :
  let interrupted :=
    World [] [] (failing waits_for_selector (Exn KeyboardInterrupt "")
                   (cooperative "/home/dev/music")) in
  run interrupted verify_ipad.main =
    (Raise (Exn KeyboardInterrupt ""),
     ipad_setup 1%nat 2%nat 3%nat 4%nat ++
     [ Called (page_goto 4%nat "http://localhost:3000") (Return VNone);
       Called (page_wait_for_selector 4%nat "text=Recent Heat" None
                                      (Some 10000))
              (Raise (Exn KeyboardInterrupt ""));
       Called (browser_close 2%nat) (Return VNone);
       Called sync_playwright_exit (Return VNone) ]).
Proof. reflexivity. Qed.

(* ===================================================================== *)
(** ** The player runner                                                  *)
(* ===================================================================== *)

(** C4.  In every run of the player runner in which [os.getcwd] returns
    [cwd] (so the application was reachable and a heading became
    visible), the log starts with: the Playwright scope entered, Chromium
    launched headless, a page opened on the browser with no options, that
    page sent to http://localhost:3000, a wait for "h1" to be visible
    with no timeout given, the working directory read, and a screenshot
    requested at [os.path.join(cwd, "verification/home.png")].  No other
    screenshot is requested in the run, and that one file is what the run
    has written if the call returns.  The path is
    [cwd ++ "/verification/home.png"] for any non-empty [cwd] that does
    not end in a separator, and absolute whenever [cwd] is. *)
Theorem player_home_screenshot (w : world) (cwd : string) :
  returned_in (trace_of w verify_player.main) os_getcwd (VStr cwd) ->
  exists p b pg r rest,
    trace_of w verify_player.main =
      [ Called sync_playwright_enter (Return (VObj p));
        Called (chromium_launch p true) (Return (VObj b));
        Called (browser_new_page b) (Return (VObj pg));
        Called (page_goto pg "http://localhost:3000") (Return VNone);
        Called (page_wait_for_selector pg "h1" (Some visible) None)
               (Return VNone);
        Called os_getcwd (Return (VStr cwd));
        Called (page_screenshot pg (os_path_join cwd "verification/home.png"))
               r ] ++ rest
    /\ screenshots_requested (trace_of w verify_player.main)
       = [os_path_join cwd "verification/home.png"]
    /\ (r = Return VNone ->
        screenshots_written (trace_of w verify_player.main)
        = [os_path_join cwd "verification/home.png"])
    /\ (cwd <> "" -> endswith_sep cwd = false ->
        os_path_join cwd "verification/home.png"
        = (cwd ++ "/verification/home.png")%string)
    /\ (startswith_sep cwd = true ->
        startswith_sep (os_path_join cwd "verification/home.png") = true).
Proof.
  unfold returned_in. explore; intros H; which_event H.
  all: do 5 eexists; split; [ reflexivity | ].
  all: split; [ reflexivity | ].
  all: split; [ intros R; first [ discriminate R | reflexivity ] | ].
  all: split; [ apply os_path_join_relative | apply os_path_join_absolute ].
Qed.

Lemma player_home_screenshot_witness :
  exists p b pg r rest,
    trace_of app_up verify_player.main =
      [ Called sync_playwright_enter (Return (VObj p));
        Called (chromium_launch p true) (Return (VObj b));
        Called (browser_new_page b) (Return (VObj pg));
        Called (page_goto pg "http://localhost:3000") (Return VNone);
        Called (page_wait_for_selector pg "h1" (Some visible) None)
               (Return VNone);
        Called os_getcwd (Return (VStr "/home/dev/music"));
        Called (page_screenshot pg
                  (os_path_join "/home/dev/music" "verification/home.png"))
               r ] ++ rest
    /\ screenshots_requested (trace_of app_up verify_player.main)
       = [os_path_join "/home/dev/music" "verification/home.png"]
    /\ (r = Return VNone ->
        screenshots_written (trace_of app_up verify_player.main)
        = [os_path_join "/home/dev/music" "verification/home.png"])
    /\ ("/home/dev/music" <> "" -> endswith_sep "/home/dev/music" = false ->
        os_path_join "/home/dev/music" "verification/home.png"
        = ("/home/dev/music" ++ "/verification/home.png")%string)
    /\ (startswith_sep "/home/dev/music" = true ->
        startswith_sep
          (os_path_join "/home/dev/music" "verification/home.png") = true).
Proof.
  apply (player_home_screenshot app_up "/home/dev/music").
  in_log.
Defined.

(** C5.  In every run of the player runner in which a call made by
    [verify_audio_player] raises [e]: the run ends by raising, [e] itself
    unless a release step raises in turn, so the process status is not 0;
    no screenshot is written; and the launched browser is closed, the
    close being the very next call after the failed one. *)
Theorem player_errors_propagate (w : world) (c : call) (e : exn) :
  raised_in (trace_of w verify_player.main) c e ->
  in_verify_audio_player c = true ->
  (exists e',
     outcome w verify_player.main = Raise e'
     /\ (release_raised (trace_of w verify_player.main) = false -> e' = e))
  /\ exit_status (outcome w verify_player.main) <> 0
  /\ screenshots_written (trace_of w verify_player.main) = []
  /\ exists b r,
       launched (trace_of w verify_player.main) = [b]
       /\ closed (trace_of w verify_player.main) = [b]
       /\ consecutive_in [ Called c (Raise e); Called (browser_close b) r ]
                         (trace_of w verify_player.main).
Proof.
  unfold raised_in. explore; intros H Hc; which_event H.
  all: try discriminate.
  all: split; [ eexists; split; [ reflexivity | cbn; congruence ] | ].
  all: split; [ apply exit_status_raise | ].
  all: split; [ reflexivity | ].
  all: do 2 eexists; split; [ reflexivity | split; [ reflexivity | ] ].
  all: find_segment.
Qed.

Lemma player_errors_propagate_witness :
  (exists e',
     outcome app_down verify_player.main = Raise e'
     /\ (release_raised (trace_of app_down verify_player.main) = false ->
         e' = connection_refused))
  /\ exit_status (outcome app_down verify_player.main) <> 0
  /\ screenshots_written (trace_of app_down verify_player.main) = []
  /\ exists b r,
       launched (trace_of app_down verify_player.main) = [b]
       /\ closed (trace_of app_down verify_player.main) = [b]
       /\ consecutive_in
            [ Called (page_goto 4%nat "http://localhost:3000")
                     (Raise connection_refused);
              Called (browser_close b) r ]
            (trace_of app_down verify_player.main).
Proof.
  apply (player_errors_propagate app_down
           (page_goto 4%nat "http://localhost:3000") connection_refused).
  - in_log.
  - reflexivity.
Defined.

(* ===================================================================== *)
(** ** Both runners                                                       *)
(* ===================================================================== *)




(** C8, as stated, fails: two runs of the player runner that get the same
    answer to every Playwright call, started in different directories,
    write different paths. *)
Lemma player_path_follows_working_directory :
  (forall t c, c <> os_getcwd ->
               respond app_up t c = respond app_up_elsewhere t c)
  /\ screenshots_written (trace_of app_up verify_player.main)
     = ["/home/dev/music/verification/home.png"]
  /\ screenshots_written (trace_of app_up_elsewhere verify_player.main)
     = ["/srv/app/verification/home.png"].
Proof.
  split; [ | split; reflexivity ].
  intros t c Hc. destruct c; try reflexivity. contradiction Hc; reflexivity.
Qed.

(** C8, amended.  Neither runner reads its arguments or its environment
    variables: two worlds that give the same answers to the Playwright
    calls give the same run of the iPad runner, whatever their arguments,
    environment and working directory, and the same run of the player
    runner as soon as [os.getcwd] answers the same too.  Every path the
    iPad runner asks a screenshot for is one of its three literals; every
    path the player runner asks for is the literal
    "verification/home.png" joined to what [os.getcwd] returned. *)
Theorem runs_depend_on_answers_only (w1 w2 : world) :
  (forall t c, c <> os_getcwd -> respond w1 t c = respond w2 t c) ->
  run w1 verify_ipad.main = run w2 verify_ipad.main
  /\ ((forall t, respond w1 t os_getcwd = respond w2 t os_getcwd) ->
      run w1 verify_player.main = run w2 verify_player.main)
  /\ incl (screenshots_requested (trace_of w1 verify_ipad.main))
          [ "verification/home_ipad.png"; "verification/library_ipad.png";
            "verification/search_ipad.png" ]
  /\ (forall path,
        In path (screenshots_requested (trace_of w1 verify_player.main)) ->
        exists cwd,
          returned_in (trace_of w1 verify_player.main) os_getcwd (VStr cwd)
          /\ path = os_path_join cwd "verification/home.png").
Proof.
  intros H. split; [ | split; [ | split ] ].
  - explore_both w1 w2 ltac:(apply H; discriminate). all: reflexivity.
  - intros Hcwd.
    assert (H' : forall t c, respond w1 t c = respond w2 t c).
    { intros t c. destruct c; try (apply H; discriminate). apply Hcwd. }
    explore_both w1 w2 ltac:(apply H'). all: reflexivity.
  - explore. all: intros path Hp; cbn in Hp |- *; tauto.
  - unfold returned_in. explore; intros path Hp; cbn in Hp; try contradiction.
    all: destruct Hp as [<- | []]; eexists; split; [ in_log | reflexivity ].
Qed.

Lemma runs_depend_on_answers_only_witness :
  run app_up verify_ipad.main = run app_up_with_flags verify_ipad.main
  /\ ((forall t, respond app_up t os_getcwd
                 = respond app_up_with_flags t os_getcwd) ->
      run app_up verify_player.main = run app_up_with_flags verify_player.main)
  /\ incl (screenshots_requested (trace_of app_up verify_ipad.main))
          [ "verification/home_ipad.png"; "verification/library_ipad.png";
            "verification/search_ipad.png" ]
  /\ (forall path,
        In path (screenshots_requested (trace_of app_up verify_player.main)) ->
        exists cwd,
          returned_in (trace_of app_up verify_player.main) os_getcwd
                      (VStr cwd)
          /\ path = os_path_join cwd "verification/home.png").
Proof.
  apply (runs_depend_on_answers_only app_up app_up_with_flags).
  intros t c Hc. reflexivity.
Defined.

(* ===================================================================== *)
(** ** Further properties of the two scripts                              *)
(* ===================================================================== *)

(** Some entry of an explicit log that is a call which raised. *)
Ltac pick_raise := (left; reflexivity) + (right; pick_raise).

(** From "every exception raised was an [Exception] raised on the page",
    in a run where one was not. *)
Ltac refute_swallowed Hall :=
  exfalso; edestruct Hall as [Hp He]; [ pick_raise | ];
  first [ discriminate Hp
        | match goal with
          | Hn : isinstance_Exception (exn_class ?x) = false |- _ =>
              rewrite Hn in He; discriminate He
          end ].

(** [scope_bracketed] for an explicit run. *)
Ltac bracket_scope :=
  first
    [ left; eexists; reflexivity
    | right;
      match goal with
      | |- exists p body x, ?t = _ /\ _ =>
          let b := eval cbv in (removelast (tl t)) in
          eexists; exists b; eexists; split; reflexivity
      end ].

(** Every way [os.path.join] can put the file name behind a directory. *)
Lemma os_path_join_shape (cwd : string) :
  os_path_join cwd "verification/home.png"
  = (cwd ++ "verification/home.png")%string
  \/ os_path_join cwd "verification/home.png"
     = (cwd ++ "/verification/home.png")%string.
Proof.
  unfold os_path_join.
  destruct cwd as [|a rest]; [ left; reflexivity | ].
  replace (startswith_sep "verification/home.png"
           || String.eqb (String a rest) "") with false by reflexivity.
  destruct (endswith_sep (String a rest)); [ left | right ]; reflexivity.
Qed.


(** X1.  [verify_app] returns, and the iPad runner exits with status 0,
    exactly in the runs in which every exception raised was raised by a
    call on the page and is an [Exception]: the handler swallows those
    and nothing else. *)
Theorem ipad_returns_iff (w : world) :
  outcome w verify_ipad.main = Return tt
  <-> (forall c e,
         raised_in (trace_of w verify_ipad.main) c e ->
         is_page_call c = true
         /\ isinstance_Exception (exn_class e) = true).
Proof.
  unfold raised_in. explore.
  all: split;
    [ intros Ho; try discriminate Ho; intros c e H; which_event H;
      (split; [ reflexivity | assumption ])
    | intros Hall; try reflexivity ].
  all: refute_swallowed Hall.
Qed.

(** X2.  The player runner ends normally exactly in the runs in which no
    call raised at all: it swallows nothing. *)
Theorem player_returns_iff (w : world) :
  outcome w verify_player.main = Return tt
  <-> (forall c e, ~ raised_in (trace_of w verify_player.main) c e).
Proof.
  unfold raised_in. explore.
  all: split;
    [ intros Ho; try discriminate Ho; intros c e H; which_event H
    | intros Hall; try reflexivity ].
  all: exfalso; eapply Hall; pick_raise.
Qed.

(** X3.  In every run of the player runner the console holds one line
    "Home screenshot taken at <path>" for each file written, naming that
    file, and nothing else; at most one file is written. *)
Theorem player_console_matches_files (w : world) :
  console (trace_of w verify_player.main)
  = map (fun path => ("Home screenshot taken at " ++ path)%string)
        (screenshots_written (trace_of w verify_player.main))
  /\ (length (screenshots_written (trace_of w verify_player.main)) <= 1)%nat.
Proof.
  explore. all: split; [ reflexivity | cbn; lia ].
Qed.

(** X4.  In every run of the iPad runner the progress messages on the
    console are those of the files written, one for one and in the same
    order; the only other line the console can hold is, last, the
    "Error: <message>" of an exception raised by a call on the page. *)
Theorem ipad_console_matches_files (w : world) :
  exists k,
    screenshots_written (trace_of w verify_ipad.main) = firstn k ipad_paths
    /\ (console (trace_of w verify_ipad.main) = firstn k ipad_messages
        \/ exists c e,
             raised_in (trace_of w verify_ipad.main) c e
             /\ is_page_call c = true
             /\ console (trace_of w verify_ipad.main)
                = firstn k ipad_messages ++ [("Error: " ++ exn_str e)%string]).
Proof.
  unfold raised_in. explore.
  all: first
    [ exists 0%nat; split; [ reflexivity | ]
    | exists 1%nat; split; [ reflexivity | ]
    | exists 2%nat; split; [ reflexivity | ]
    | exists 3%nat; split; [ reflexivity | ] ].
  all: first
    [ left; reflexivity
    | right; do 2 eexists; split; [ pick_raise | split; reflexivity ] ].
Qed.

(** X5.  In every run of the iPad runner in which a call on the page
    raises an exception that is not an [Exception] (an interrupt), the
    handler does not run: no "Error:" line is printed, the browser is
    closed right after the failed call, and [verify_app] ends by raising,
    that exception unless a release step raises in turn; the process
    status is not 0. *)
Theorem ipad_non_exception_not_swallowed (w : world) (c : call) (e : exn) :
  raised_in (trace_of w verify_ipad.main) c e ->
  is_page_call c = true ->
  isinstance_Exception (exn_class e) = false ->
  (exists e',
     outcome w verify_ipad.main = Raise e'
     /\ (release_raised (trace_of w verify_ipad.main) = false -> e' = e))
  /\ exit_status (outcome w verify_ipad.main) <> 0
  /\ (exists k, console (trace_of w verify_ipad.main) = firstn k ipad_messages)
  /\ exists b r,
       launched (trace_of w verify_ipad.main) = [b]
       /\ closed (trace_of w verify_ipad.main) = [b]
       /\ consecutive_in [ Called c (Raise e); Called (browser_close b) r ]
                         (trace_of w verify_ipad.main).
Proof.
  unfold raised_in. explore; intros H Hc He; which_event H.
  all: try discriminate Hc.
  all: try (match goal with
            | Hn : isinstance_Exception (exn_class ?x) = true |- _ =>
                rewrite Hn in He; discriminate He
            end).
  all: split;
    [ eexists; split;
      [ reflexivity
      | cbn; intros R; first [ discriminate R | reflexivity ] ] | ].
  all: split; [ apply exit_status_raise | ].
  all: split;
    [ first [ exists 0%nat; reflexivity | exists 1%nat; reflexivity
            | exists 2%nat; reflexivity | exists 3%nat; reflexivity ] | ].
  all: do 2 eexists; split; [ reflexivity | split; [ reflexivity | ] ].
  all: find_segment.
Qed.

Lemma ipad_non_exception_not_swallowed_witness :
  (exists e',
     outcome app_interrupted verify_ipad.main = Raise e'
     /\ (release_raised (trace_of app_interrupted verify_ipad.main) = false ->
         e' = interrupt))
  /\ exit_status (outcome app_interrupted verify_ipad.main) <> 0
  /\ (exists k, console (trace_of app_interrupted verify_ipad.main)
                = firstn k ipad_messages)
  /\ exists b r,
       launched (trace_of app_interrupted verify_ipad.main) = [b]
       /\ closed (trace_of app_interrupted verify_ipad.main) = [b]
       /\ consecutive_in
            [ Called (page_wait_for_selector 4%nat "text=Recent Heat" None
                                             (Some 10000))
                     (Raise interrupt);
              Called (browser_close b) r ]
            (trace_of app_interrupted verify_ipad.main).
Proof.
  apply (ipad_non_exception_not_swallowed app_interrupted
           (page_wait_for_selector 4%nat "text=Recent Heat" None (Some 10000))
           interrupt).
  - in_log.
  - reflexivity.
  - reflexivity.
Defined.

(** X6.  In every run of either runner the Playwright scope is left
    exactly once whenever it was entered, as the very last thing the run
    does, whatever happened inside; when entering raises, nothing else
    happens and the run ends with that exception. *)
Theorem playwright_scope_always_left (w : world) :
  scope_bracketed (run w verify_ipad.main)
  /\ scope_bracketed (run w verify_player.main).
Proof.
  unfold scope_bracketed. split.
  - explore. all: bracket_scope.
  - explore. all: bracket_scope.
Qed.

(** X7.  Neither runner retries or carries on after a failure: in every
    run, once a call has raised, the log holds nothing more than the
    handler's "Error:" line, the close of the browser and the exit of the
    Playwright scope. *)
Theorem nothing_retried_after_a_raise (w : world) :
  winding_down (after_first_raise (trace_of w verify_ipad.main))
  /\ winding_down (after_first_raise (trace_of w verify_player.main)).
Proof.
  unfold winding_down. split.
  - explore. all: reflexivity.
  - explore. all: reflexivity.
Qed.

(** X8.  In every run of either runner, every operation on a page is on
    a page the run opened, and every browser closed is one the run
    launched. *)
Theorem only_own_objects_used (w : world) :
  (incl (pages_used (trace_of w verify_ipad.main))
        (pages_opened (trace_of w verify_ipad.main))
   /\ incl (closed (trace_of w verify_ipad.main))
           (launched (trace_of w verify_ipad.main)))
  /\ (incl (pages_used (trace_of w verify_player.main))
           (pages_opened (trace_of w verify_player.main))
      /\ incl (closed (trace_of w verify_player.main))
              (launched (trace_of w verify_player.main))).
Proof.
  unfold incl. split.
  - explore. all: split; intros a Ha; cbn in Ha |- *; tauto.
  - explore. all: split; intros a Ha; cbn in Ha |- *; tauto.
Qed.

(** X9.  Every path the player runner asks a screenshot for is the
    working directory [os.getcwd] returned, followed by
    "verification/home.png" with at most one separator put in between. *)
Theorem player_path_under_working_directory (w : world) (path : string) :
  In path (screenshots_requested (trace_of w verify_player.main)) ->
  exists cwd,
    returned_in (trace_of w verify_player.main) os_getcwd (VStr cwd)
    /\ (path = (cwd ++ "verification/home.png")%string
        \/ path = (cwd ++ "/verification/home.png")%string).
Proof.
  unfold returned_in. explore; intros Hp; cbn in Hp; try contradiction.
  all: destruct Hp as [<- | []]; eexists; split;
    [ in_log | apply os_path_join_shape ].
Qed.

Lemma player_path_under_working_directory_witness :
  exists cwd,
    returned_in (trace_of app_up_elsewhere verify_player.main) os_getcwd
                (VStr cwd)
    /\ ("/srv/app/verification/home.png"
        = (cwd ++ "verification/home.png")%string
        \/ "/srv/app/verification/home.png"
           = (cwd ++ "/verification/home.png")%string).
Proof.
  apply (player_path_under_working_directory app_up_elsewhere
           "/srv/app/verification/home.png").
  in_log.
Defined.

(** X10.  In every run of the player runner in which entering the
    Playwright scope, launching the browser or opening the page raises:
    the run ends by raising (that exception unless leaving the scope
    raises in turn) with a non-zero status, no page is operated on,
    nothing is written or printed, and [browser.close] is not called. *)
Theorem player_setup_errors_propagate (w : world) (c : call) (e : exn) :
  raised_in (trace_of w verify_player.main) c e ->
  is_setup_call c = true ->
  (exists e',
     outcome w verify_player.main = Raise e'
     /\ (release_raised (trace_of w verify_player.main) = false -> e' = e))
  /\ exit_status (outcome w verify_player.main) <> 0
  /\ pages_used (trace_of w verify_player.main) = []
  /\ screenshots_written (trace_of w verify_player.main) = []
  /\ console (trace_of w verify_player.main) = []
  /\ closed (trace_of w verify_player.main) = [].
Proof.
  unfold raised_in. explore; intros H Hc; which_event H.
  all: try discriminate Hc.
  all: split;
    [ eexists; split;
      [ reflexivity
      | cbn; intros R; first [ discriminate R | reflexivity ] ] | ].
  all: split; [ apply exit_status_raise | repeat split ].
Qed.

Lemma player_setup_errors_propagate_witness :
  (exists e',
     outcome browser_missing verify_player.main = Raise e'
     /\ (release_raised (trace_of browser_missing verify_player.main) = false ->
         e' = executable_missing))
  /\ exit_status (outcome browser_missing verify_player.main) <> 0
  /\ pages_used (trace_of browser_missing verify_player.main) = []
  /\ screenshots_written (trace_of browser_missing verify_player.main) = []
  /\ console (trace_of browser_missing verify_player.main) = []
  /\ closed (trace_of browser_missing verify_player.main) = [].
Proof.
  apply (player_setup_errors_propagate browser_missing
           (chromium_launch 1%nat true) executable_missing).
  - in_log.
  - reflexivity.
Defined.

(** X11.  When a run of either runner ends by raising, the exception it
    ends with is the one raised last in the run: an exception raised by
    closing the browser or by leaving the Playwright scope takes the
    place of an earlier one. *)
Theorem run_ends_with_last_exception (w : world) (e : exn) :
  (outcome w verify_ipad.main = Raise e ->
   last_raised (trace_of w verify_ipad.main) = Some e)
  /\ (outcome w verify_player.main = Raise e ->
      last_raised (trace_of w verify_player.main) = Some e).
Proof.
  split.
  - explore.
    all: intros Ho; first [ discriminate Ho | inversion Ho; reflexivity ].
  - explore.
    all: intros Ho; first [ discriminate Ho | inversion Ho; reflexivity ].
Qed.

(** X12.  In every run of the iPad runner in which no call raises, all
    three screenshots are written, in the script's order, the three
    progress messages are printed, the browser is closed and [verify_app]
    returns. *)
Theorem ipad_full_run (w : world) :
  (forall c e, ~ raised_in (trace_of w verify_ipad.main) c e) ->
  screenshots_written (trace_of w verify_ipad.main) = ipad_paths
  /\ console (trace_of w verify_ipad.main) = ipad_messages
  /\ closed (trace_of w verify_ipad.main) = launched (trace_of w verify_ipad.main)
  /\ length (closed (trace_of w verify_ipad.main)) = 1%nat
  /\ outcome w verify_ipad.main = Return tt.
Proof.
  unfold raised_in. explore; intros Hall.
  all: try solve [ exfalso; eapply Hall; pick_raise ].
  repeat split.
Qed.

Lemma ipad_full_run_witness :
  screenshots_written (trace_of app_up verify_ipad.main) = ipad_paths
  /\ console (trace_of app_up verify_ipad.main) = ipad_messages
  /\ closed (trace_of app_up verify_ipad.main)
     = launched (trace_of app_up verify_ipad.main)
  /\ length (closed (trace_of app_up verify_ipad.main)) = 1%nat
  /\ outcome app_up verify_ipad.main = Return tt.
Proof.
  apply (ipad_full_run app_up).
  intros c e H. unfold raised_in in H. which_event H.
Defined.
